(** * A CRUD service over [users(id, name, age)]: model and verification

    Shallow embedding of [main.go]: the [User] entity, [validateUser], and
    the five echo handlers registered in [main] (POST /users, GET /users,
    GET /users/:id, PUT /users/:id, DELETE /users/:id).

    The handlers talk to three libraries, which are modelled as far as the
    handlers observe them:
      - [strconv.Atoi] of the Go standard library (64-bit [int]);
      - [database/sql]: [DB.Exec], [DB.Query], [DB.QueryRow], [Rows], [Row],
        [Result];
      - echo: [Context.Param], [Context.FormValue], [Context.JSON],
        [Context.NoContent], [NewHTTPError].
    Handlers are programs over the database calls they issue; a driver gives
    those calls a meaning on a connection state. *)

From Stdlib Require Import ZArith String Ascii List Bool Lia DecimalString.
Import ListNotations.

Local Open Scope string_scope.
Local Open Scope Z_scope.

(** ** Go values *)

(** Go strings are byte sequences; [len] counts bytes. *)
Definition len (s : string) : Z := Z.of_nat (String.length s).

Definition byte_of (c : ascii) : Z := Z.of_N (N_of_ascii c).

(** [int] and [int64] are 64-bit two's complement, [uint64] and [byte] are
    unsigned; arithmetic wraps. *)
Definition intSize : Z := 64.
Definition maxInt : Z := 2 ^ 63 - 1.
Definition minInt : Z := - 2 ^ 63.
Definition maxUint64 : Z := 2 ^ 64 - 1.

Definition wrap_int (z : Z) : Z := (z + 2 ^ 63) mod 2 ^ 64 - 2 ^ 63.
Definition wrap_uint64 (z : Z) : Z := z mod 2 ^ 64.
Definition wrap_byte (z : Z) : Z := z mod 256.

(** A slice is [nil] or a (possibly empty) backing sequence; the two differ
    under [encoding/json]. *)
Inductive slice (A : Type) : Type :=
| nil_slice
| mk_slice (elems : list A).
Arguments nil_slice {A}.
Arguments mk_slice {A} elems.

Definition append {A : Type} (s : slice A) (x : A) : slice A :=
  match s with
  | nil_slice => mk_slice [x]
  | mk_slice l => mk_slice (l ++ [x])
  end.

(** ** Errors of the libraries *)

Inductive numErrKind : Type := ErrSyntax | ErrRange.

(** [strconv.NumError]. *)
Record NumError : Type := mkNumError {
  Func : string;
  Num : string;
  Err : numErrKind
}.

Inductive error : Type :=
| StrconvError (e : NumError)     (* a *strconv.NumError *)
| ErrNoRows                       (* sql.ErrNoRows *)
| DriverError (msg : string).     (* any error of the SQL driver *)

(** What the Go runtime contributes to the text of messages and bodies:
    [strconv.Quote], used by [NumError.Error], and the encoding of a Go
    string as a JSON string literal by [encoding/json]. *)
Class GoText : Type := {
  Quote : string -> string;
  jsonString : string -> string
}.

Definition numErrKind_text (k : numErrKind) : string :=
  match k with
  | ErrSyntax => "invalid syntax"
  | ErrRange => "value out of range"
  end.

(** [err.Error()]. *)
Definition Error {text : GoText} (e : error) : string :=
  match e with
  | StrconvError e =>
      "strconv." ++ Func e ++ ": parsing " ++ Quote (Num e) ++ ": "
      ++ numErrKind_text (Err e)
  | ErrNoRows => "sql: no rows in result set"
  | DriverError msg => msg
  end.

(** ** strconv.Atoi *)

Module strconv.

Definition fnAtoi : string := "Atoi".
Definition fnParseInt : string := "ParseInt".
Definition fnParseUint : string := "ParseUint".

Definition syntaxError (fn str : string) : NumError := mkNumError fn str ErrSyntax.
Definition rangeError (fn str : string) : NumError := mkNumError fn str ErrRange.

(** [lower(c)]: [c | ('x' - 'X')]. *)
Definition lower (c : Z) : Z := Z.lor c 32.

(** The digit value [ParseUint] reads off a byte, if any. *)
Definition digit_of (c : Z) : option Z :=
  if (48 <=? c) && (c <=? 57) then Some (wrap_byte (c - 48))
  else if (97 <=? lower c) && (lower c <=? 122)
       then Some (wrap_byte (lower c - 97 + 10))
  else None.

(** The digit loop of [ParseUint(s, 10, 0)]: base 10, so no underscores;
    [bitSize = 0] stands for [IntSize]; [cutoff = maxUint64/10 + 1]. *)
Fixpoint parseUint_loop (s0 s : string) (n : Z) : Z * option NumError :=
  match s with
  | EmptyString => (n, None)
  | String c s' =>
      match digit_of (byte_of c) with
      | None => (0, Some (syntaxError fnParseUint s0))
      | Some d =>
          if 10 <=? d then (0, Some (syntaxError fnParseUint s0))
          else if maxUint64 / 10 + 1 <=? n
               then (maxUint64, Some (rangeError fnParseUint s0))
          else
            let n := wrap_uint64 (n * 10) in
            let n1 := wrap_uint64 (n + d) in
            if (n1 <? n) || (maxUint64 <? n1)
            then (maxUint64, Some (rangeError fnParseUint s0))
            else parseUint_loop s0 s' n1
      end
  end.

Definition ParseUint (s : string) : Z * option NumError :=
  match s with
  | EmptyString => (0, Some (syntaxError fnParseUint s))
  | _ => parseUint_loop s s 0
  end.

(** [ParseInt(s, 10, 0)]. *)
Definition ParseInt (s : string) : Z * option NumError :=
  match s with
  | EmptyString => (0, Some (syntaxError fnParseInt s))
  | String c rest =>
      let s0 := s in
      let neg := Ascii.eqb c "-" in
      let s := if Ascii.eqb c "+" || Ascii.eqb c "-" then rest else s in
      let '(un, err) := ParseUint s in
      match option_map Err err with
      | Some ErrSyntax => (0, Some (syntaxError fnParseInt s0))
      | Some ErrRange | None =>
          let cutoff := 2 ^ (intSize - 1) in
          if negb neg && (cutoff <=? un)
          then (wrap_int (cutoff - 1), Some (rangeError fnParseInt s0))
          else if neg && (cutoff <? un)
          then (wrap_int (- cutoff), Some (rangeError fnParseInt s0))
          else
            let n := wrap_int un in
            (if neg then wrap_int (- n) else n, None)
      end
  end.

(** The digit loop of the fast path of [Atoi]. *)
Fixpoint atoi_digits (s0 s : string) (n : Z) : Z * option NumError :=
  match s with
  | EmptyString => (n, None)
  | String ch s' =>
      let ch := wrap_byte (byte_of ch - 48) in
      if 9 <? ch then (0, Some (syntaxError fnAtoi s0))
      else atoi_digits s0 s' (wrap_int (wrap_int (n * 10) + ch))
  end.

Definition atoi_fast (s : string) : Z * option NumError :=
  let s0 := s in
  match s with
  | EmptyString => (0, Some (syntaxError fnAtoi s0))
  | String c rest =>
      let signed := Ascii.eqb c "-" || Ascii.eqb c "+" in
      if signed && (len rest <? 1) then (0, Some (syntaxError fnAtoi s0))
      else
        match atoi_digits s0 (if signed then rest else s) 0 with
        | (n, None) => (if Ascii.eqb c "-" then wrap_int (- n) else n, None)
        | (_, Some e) => (0, Some e)
        end
  end.

Definition setFunc (fn : string) (e : NumError) : NumError :=
  mkNumError fn (Num e) (Err e).

(** [strconv.Atoi]: the value is returned together with the error, and is
    meaningful also when the error is not [nil]. *)
Definition Atoi (s : string) : Z * option error :=
  let sLen := len s in
  if (intSize =? 32) && ((0 <? sLen) && (sLen <? 10))
     || (intSize =? 64) && ((0 <? sLen) && (sLen <? 19))
  then
    let '(n, err) := atoi_fast s in
    (n, option_map StrconvError err)
  else
    let '(i64, err) := ParseInt s in
    (wrap_int i64, option_map (fun nerr => StrconvError (setFunc fnAtoi nerr)) err).

End strconv.


(** ** The entity *)

(** [type User struct]. *)
Record User : Type := mkUser {
  ID : Z;
  Name : string;
  Age : Z
}.

(** ** encoding/json *)

#[warnings="-register-all"] Inductive json : Type :=
| JNull
| JNumber (n : Z)
| JString (s : string)
| JArray (items : list json)
| JObject (fields : list (string * json)).

(** A [User] marshals to an object with the keys of its [json] tags, in
    field order; a slice marshals to an array, and the nil slice to null. *)
Definition User_json (u : User) : json :=
  JObject [("id", JNumber (ID u)); ("name", JString (Name u)); ("age", JNumber (Age u))].

Definition Users_json (users : slice User) : json :=
  match users with
  | nil_slice => JNull
  | mk_slice l => JArray (map User_json l)
  end.

Definition decimal (n : Z) : string := NilZero.string_of_int (Z.to_int n).

(** The compact text of a JSON value, as [json.Marshal] writes it. *)
Fixpoint json_text {text : GoText} (j : json) : string :=
  match j with
  | JNull => "null"
  | JNumber n => decimal n
  | JString s => jsonString s
  | JArray items =>
      let fix elems (l : list json) : string :=
        match l with
        | [] => EmptyString
        | x :: l' =>
            match l' with
            | [] => json_text x
            | _ :: _ => json_text x ++ "," ++ elems l'
            end
        end in
      "[" ++ elems items ++ "]"
  | JObject fields =>
      let fix members (l : list (string * json)) : string :=
        match l with
        | [] => EmptyString
        | (k, v) :: l' =>
            match l' with
            | [] => jsonString k ++ ":" ++ json_text v
            | _ :: _ => jsonString k ++ ":" ++ json_text v ++ "," ++ members l'
            end
        end in
      "{" ++ members fields ++ "}"
  end.

(** ** database/sql *)

Inductive result (A : Type) : Type :=
| Ok (a : A)
| Fail (err : error).
Arguments Ok {A} a.
Arguments Fail {A} err.

(** A bound statement parameter. *)
Inductive sqlArg : Type :=
| ArgInt (n : Z)
| ArgString (s : string).

(** [sql.Result]: both methods return a value and an error. *)
Record Result : Type := mkResult {
  LastInsertId : Z * option error;
  RowsAffected : Z * option error
}.

(** The values [Scan(&user.ID, &user.Name, &user.Age)] stores. *)
Definition scanned : Type := (Z * string * Z)%type.

(** [sql.Rows], as a cursor yet to be read: what each successive
    [Next(); Scan(...)] will give, the error [Err()] reports once [Next]
    has returned false, and the error of [Close()]. *)
Record Rows : Type := mkRows {
  pending : list (result scanned);
  iter_err : option error;
  close_err : option error
}.

(** [sql.Row]: a deferred error, or the rows of the query. *)
Record Row : Type := mkRow {
  row_err : option error;
  row_rows : Rows
}.

(** [Row.Scan]. *)
Definition Row_Scan (r : Row) : result scanned :=
  match row_err r with
  | Some err => Fail err
  | None =>
      match pending (row_rows r) with
      | [] =>
          match iter_err (row_rows r) with
          | Some err => Fail err
          | None => Fail ErrNoRows
          end
      | Fail err :: _ => Fail err
      | Ok v :: _ =>
          match close_err (row_rows r) with
          | Some err => Fail err
          | None => Ok v
          end
      end
  end.

(** ** Handler programs *)

(** A computation that may call the database: each call names the
    statement text and its bound parameters, and continues with what the
    database answered. *)
Inductive action (A : Type) : Type :=
| Return (a : A)
| ExecThen (query : string) (args : list sqlArg) (k : result Result -> action A)
| QueryThen (query : string) (args : list sqlArg) (k : result Rows -> action A)
| QueryRowThen (query : string) (args : list sqlArg) (k : Row -> action A).
Arguments Return {A} a.
Arguments ExecThen {A} query args k.
Arguments QueryThen {A} query args k.
Arguments QueryRowThen {A} query args k.

Fixpoint bind {A B : Type} (m : action A) (f : A -> action B) : action B :=
  match m with
  | Return a => f a
  | ExecThen q args k => ExecThen q args (fun r => bind (k r) f)
  | QueryThen q args k => QueryThen q args (fun r => bind (k r) f)
  | QueryRowThen q args k => QueryRowThen q args (fun r => bind (k r) f)
  end.

Notation "x <- m ;; k" := (bind m (fun x => k))
  (at level 61, m at next level, right associativity).

(** [db.Exec], [db.Query], [db.QueryRow]. *)
Definition Exec (query : string) (args : list sqlArg) : action (result Result) :=
  ExecThen query args Return.
Definition Query (query : string) (args : list sqlArg) : action (result Rows) :=
  QueryThen query args Return.
Definition QueryRow (query : string) (args : list sqlArg) : action Row :=
  QueryRowThen query args Return.

(** ** echo *)

Definition StatusOK : Z := 200.
Definition StatusNoContent : Z := 204.
Definition StatusBadRequest : Z := 400.
Definition StatusNotFound : Z := 404.
Definition StatusInternalServerError : Z := 500.

(** [echo.HTTPError]; every message in this program is a string. *)
Record HTTPError : Type := NewHTTPError {
  Code : Z;
  Message : string
}.

(** The request as the handlers read it: path parameters and form values,
    each in order of appearance. *)
Record Context : Type := mkContext {
  path_params : list (string * string);
  form_values : list (string * string)
}.

Fixpoint first_value (name : string) (l : list (string * string)) : string :=
  match l with
  | [] => EmptyString
  | (k, v) :: l' => if String.eqb k name then v else first_value name l'
  end.

(** [c.Param(name)], [c.FormValue(name)]: the first value under the name,
    the empty string when there is none. *)
Definition Param (c : Context) (name : string) : string :=
  first_value name (path_params c).
Definition FormValue (c : Context) (name : string) : string :=
  first_value name (form_values c).

Inductive Body : Type :=
| NoBody
| JSONBody (j : json).

Record Response : Type := mkResponse {
  Status : Z;
  Payload : Body
}.

(** How a handler ends: it wrote a response and returned [nil], or it
    returned an [*echo.HTTPError]. *)
Inductive outcome : Type :=
| Sent (r : Response)
| Failed (e : HTTPError).

(** [c.JSON(code, v)] and [c.NoContent(code)]; the write to the client is
    taken to succeed. *)
Definition JSON (code : Z) (j : json) : outcome :=
  Sent (mkResponse code (JSONBody j)).
Definition NoContent (code : Z) : outcome :=
  Sent (mkResponse code NoBody).

(** The status the client sees: echo answers a returned [HTTPError] with
    its code. *)
Definition http_status (o : outcome) : Z :=
  match o with
  | Sent r => Status r
  | Failed e => Code e
  end.

(** ** main.go *)

Section Handlers.
Context {text : GoText}.

(** [func validateUser(name string, age int) error]: [None] is [nil]. *)
Definition validateUser (name : string) (age : Z) : option HTTPError :=
  if String.eqb name EmptyString then
    Some (NewHTTPError StatusBadRequest "name is empty")
  else if 100 <? len name then
    Some (NewHTTPError StatusBadRequest "name is too long")
  else if (age <? 0) || (200 <=? age) then
    Some (NewHTTPError StatusBadRequest "age must be between 0 and 200")
  else None.

(** [e.DELETE("/users/:id", ...)]. *)
Definition DELETE_users_id (c : Context) : action outcome :=
  let '(id, err) := strconv.Atoi (Param c "id") in
  match err with
  | Some err => Return (Failed (NewHTTPError StatusInternalServerError (Error err)))
  | None =>
      r <- Exec "DELETE FROM users WHERE id = ?" [ArgInt id] ;;
      match r with
      | Fail err => Return (Failed (NewHTTPError StatusInternalServerError (Error err)))
      | Ok result =>
          let '(rowsAffected, _) := RowsAffected result in
          if rowsAffected =? 0 then
            Return (Failed (NewHTTPError StatusNotFound "Not Found"))
          else Return (NoContent StatusNoContent)
      end
  end.

(** [e.POST("/users", ...)]. *)
Definition POST_users (c : Context) : action outcome :=
  let name := FormValue c "name" in
  let '(age, _) := strconv.Atoi (FormValue c "age") in
  r <- Exec "INSERT INTO users(name, age) VALUES(?, ?)" [ArgString name; ArgInt age] ;;
  match r with
  | Fail err => Return (Failed (NewHTTPError StatusInternalServerError (Error err)))
  | Ok result =>
      let '(id, _) := LastInsertId result in
      Return (JSON StatusOK (User_json (mkUser (wrap_int id) name age)))
  end.

(** [e.PUT("/users/:id", ...)]. *)
Definition PUT_users_id (c : Context) : action outcome :=
  let '(id, err) := strconv.Atoi (Param c "id") in
  match err with
  | Some err => Return (Failed (NewHTTPError StatusInternalServerError (Error err)))
  | None =>
      let name := FormValue c "name" in
      let '(age, err) := strconv.Atoi (FormValue c "age") in
      match err with
      | Some err => Return (Failed (NewHTTPError StatusInternalServerError (Error err)))
      | None =>
          match validateUser name age with
          | Some err => Return (Failed err)
          | None =>
              r <- Exec "UPDATE users SET name = ?, age = ? WHERE id = ?"
                     [ArgString name; ArgInt age; ArgInt id] ;;
              match r with
              | Fail err =>
                  Return (Failed (NewHTTPError StatusInternalServerError (Error err)))
              | Ok result =>
                  let '(rows, _) := RowsAffected result in
                  if rows =? 0 then
                    Return (Failed (NewHTTPError StatusNotFound "Not Found"))
                  else Return (JSON StatusOK (User_json (mkUser id name age)))
              end
          end
      end
  end.

(** The loop [for rows.Next() { ... }] of GET /users: scan each row and
    append it, or stop at the first scan error. *)
Fixpoint scan_users (rows : list (result scanned)) (users : slice User)
  : result (slice User) :=
  match rows with
  | [] => Ok users
  | Fail err :: _ => Fail err
  | Ok (id, name, age) :: rows' => scan_users rows' (append users (mkUser id name age))
  end.

(** [e.GET("/users", ...)]. *)
Definition GET_users (c : Context) : action outcome :=
  r <- Query "SELECT id, name, age FROM users" [] ;;
  match r with
  | Fail err => Return (Failed (NewHTTPError StatusInternalServerError (Error err)))
  | Ok rows =>
      let users := mk_slice [] in
      match scan_users (pending rows) users with
      | Fail err => Return (Failed (NewHTTPError StatusInternalServerError (Error err)))
      | Ok users => Return (JSON StatusOK (Users_json users))
      end
  end.

(** [e.GET("/users/:id", ...)]. *)
Definition GET_users_id (c : Context) : action outcome :=
  let '(id, err) := strconv.Atoi (Param c "id") in
  match err with
  | Some err => Return (Failed (NewHTTPError StatusInternalServerError (Error err)))
  | None =>
      row <- QueryRow "SELECT id, name, age FROM users WHERE id = ?" [ArgInt id] ;;
      match Row_Scan row with
      | Fail err => Return (Failed (NewHTTPError StatusInternalServerError (Error err)))
      | Ok (id', name, age) => Return (JSON StatusOK (User_json (mkUser id' name age)))
      end
  end.

End Handlers.

(** ** Running a handler against a database *)

(** A database driver: a connection state and the meaning of the three
    calls on it. *)
Record Driver : Type := mkDriver {
  conn : Type;
  driver_exec : string -> list sqlArg -> conn -> result Result * conn;
  driver_query : string -> list sqlArg -> conn -> result Rows * conn;
  driver_query_row : string -> list sqlArg -> conn -> Row * conn
}.

(** A statement sent to the database. *)
Record statement : Type := mkStatement {
  stmt_text : string;
  stmt_args : list sqlArg
}.

(** [run d m s]: the value of [m], the connection state after it, and the
    statements it sent, in order. *)
Fixpoint run {A : Type} (d : Driver) (m : action A) (s : conn d)
  : A * conn d * list statement :=
  match m with
  | Return a => (a, s, [])
  | ExecThen q args k =>
      let '(r, s') := driver_exec d q args s in
      let '(a, s'', sent) := run d (k r) s' in
      (a, s'', mkStatement q args :: sent)
  | QueryThen q args k =>
      let '(r, s') := driver_query d q args s in
      let '(a, s'', sent) := run d (k r) s' in
      (a, s'', mkStatement q args :: sent)
  | QueryRowThen q args k =>
      let '(r, s') := driver_query_row d q args s in
      let '(a, s'', sent) := run d (k r) s' in
      (a, s'', mkStatement q args :: sent)
  end.

(** ** A reference database *)

(** The table [users(id INTEGER PRIMARY KEY AUTOINCREMENT, name, age)] held
    in memory: its rows in insertion order and the largest id handed out so
    far. It answers the five statements of [main.go] and refuses any other. *)
Record Table : Type := mkTable {
  tbl_rows : list User;
  tbl_seq : Z
}.

Definition empty_table : Table := mkTable [] 0.

Definition has_id (id : Z) (u : User) : bool := ID u =? id.

Definition count_id (id : Z) (t : Table) : Z :=
  Z.of_nat (List.length (filter (has_id id) (tbl_rows t))).

Definition as_row (u : User) : result scanned := Ok (ID u, Name u, Age u).

Definition table_rows (l : list User) : Rows := mkRows (map as_row l) None None.

Definition table_exec (q : string) (args : list sqlArg) (t : Table)
  : result Result * Table :=
  if String.eqb q "INSERT INTO users(name, age) VALUES(?, ?)" then
    match args with
    | [ArgString name; ArgInt age] =>
        let id := tbl_seq t + 1 in
        (Ok (mkResult (id, None) (1, None)),
         mkTable (tbl_rows t ++ [mkUser id name age]) id)
    | _ => (Fail (DriverError "wrong parameters"), t)
    end
  else if String.eqb q "UPDATE users SET name = ?, age = ? WHERE id = ?" then
    match args with
    | [ArgString name; ArgInt age; ArgInt id] =>
        (Ok (mkResult (tbl_seq t, None) (count_id id t, None)),
         mkTable (map (fun u => if has_id id u then mkUser id name age else u)
                      (tbl_rows t))
                 (tbl_seq t))
    | _ => (Fail (DriverError "wrong parameters"), t)
    end
  else if String.eqb q "DELETE FROM users WHERE id = ?" then
    match args with
    | [ArgInt id] =>
        (Ok (mkResult (tbl_seq t, None) (count_id id t, None)),
         mkTable (filter (fun u => negb (has_id id u)) (tbl_rows t)) (tbl_seq t))
    | _ => (Fail (DriverError "wrong parameters"), t)
    end
  else (Fail (DriverError "unknown statement"), t).

Definition table_query (q : string) (args : list sqlArg) (t : Table)
  : result Rows * Table :=
  if String.eqb q "SELECT id, name, age FROM users" then
    match args with
    | [] => (Ok (table_rows (tbl_rows t)), t)
    | _ => (Fail (DriverError "wrong parameters"), t)
    end
  else (Fail (DriverError "unknown statement"), t).

Definition table_query_row (q : string) (args : list sqlArg) (t : Table)
  : Row * Table :=
  if String.eqb q "SELECT id, name, age FROM users WHERE id = ?" then
    match args with
    | [ArgInt id] => (mkRow None (table_rows (filter (has_id id) (tbl_rows t))), t)
    | _ => (mkRow (Some (DriverError "wrong parameters")) (table_rows []), t)
    end
  else (mkRow (Some (DriverError "unknown statement")) (table_rows []), t).

Definition tableDriver : Driver :=
  mkDriver Table table_exec table_query table_query_row.

(** Tables and requests for the checks on concrete inputs. *)
Definition alice_table : Table := mkTable [mkUser 1 "Alice" 30] 1.

Definition put_bob : Context :=
  mkContext [("id", "1")] [("name", "Bob"); ("age", "31")].

Definition at_id (id : string) : Context := mkContext [("id", id)] [].

Definition post_huge_age : Context :=
  mkContext [] [("name", "Alice"); ("age", "9223372036854775808")].

(** A driver that gives the same answers whatever it is asked, and keeps
    no state. *)
Definition fixedDriver (exec : result Result) (query : result Rows) (row : Row)
  : Driver :=
  mkDriver unit
    (fun _ _ s => (exec, s))
    (fun _ _ s => (query, s))
    (fun _ _ s => (row, s)).

Definition locked : error := DriverError "database is locked".

Definition no_rows : Rows := mkRows [] None None.

(** A database that refuses every call. *)
Definition lockedDriver : Driver :=
  fixedDriver (Fail locked) (Fail locked) (mkRow (Some locked) no_rows).

Definition empty_request : Context := mkContext [] [].

(** A rendering of Go strings that is the runtime's on printable ASCII
    text free of quotes, backslashes, angle brackets and ampersands: the
    text between double quotes. It serves the checks on concrete inputs
    only; every theorem on the handlers holds for any [GoText]. *)
Definition dquote : string := String (ascii_of_nat 34) EmptyString.

Definition plainText : GoText :=
  {| Quote := fun s => dquote ++ s ++ dquote;
     jsonString := fun s => dquote ++ s ++ dquote |}.

(** ** UTF-8 *)

(** [utf8.AppendRune]: the bytes of one code point; [i] is [uint32(r)],
    and a code point that is no Unicode scalar value is written as U+FFFD. *)
Definition encode_rune (r : Z) : list Z :=
  let i := r mod 2 ^ 32 in
  if i <=? 127 then [r]
  else if i <=? 2047 then
    [Z.lor 192 (Z.shiftr r 6); Z.lor 128 (Z.land r 63)]
  else if (1114111 <? i) || ((55296 <=? i) && (i <=? 57343)) then
    [239; 191; 189]
  else if i <=? 65535 then
    [Z.lor 224 (Z.shiftr r 12);
     Z.lor 128 (Z.land (Z.shiftr r 6) 63);
     Z.lor 128 (Z.land r 63)]
  else
    [Z.lor 240 (Z.shiftr r 18);
     Z.lor 128 (Z.land (Z.shiftr r 12) 63);
     Z.lor 128 (Z.land (Z.shiftr r 6) 63);
     Z.lor 128 (Z.land r 63)].

Definition string_of_bytes (l : list Z) : string :=
  fold_right (fun b s => String (ascii_of_N (Z.to_N b)) s) EmptyString l.

(** [string(runes)]: the text whose characters are the given code points. *)
Definition string_of_runes (runes : list Z) : string :=
  string_of_bytes (flat_map encode_rune runes).

(** A continuation byte is [10xxxxxx]. *)
Definition is_continuation (b : Z) : bool := Z.land b 192 =? 128.

(** The number of characters of well-formed UTF-8 text: the bytes that are
    not continuation bytes. *)
Fixpoint count_chars (s : string) : Z :=
  match s with
  | EmptyString => 0
  | String c s' => (if is_continuation (byte_of c) then 0 else 1) + count_chars s'
  end.

(** The non-continuation bytes of a byte sequence. *)
Fixpoint count_leads (l : list Z) : Z :=
  match l with
  | [] => 0
  | b :: l' => (if is_continuation b then 0 else 1) + count_leads l'
  end.

Definition is_byte (b : Z) : bool := (0 <=? b) && (b <? 256).

(** The shapes of the bytes [encode_rune] writes. *)
Definition lead_ok (tag x : Z) : bool :=
  is_byte (Z.lor tag x) && negb (is_continuation (Z.lor tag x)).

Definition continuation_ok (y : Z) : bool :=
  is_byte (Z.lor 128 y) && is_continuation (Z.lor 128 y).

(** Case analysis on the condition of a conditional of the goal. *)
Ltac case_if :=
  match goal with
  | |- context [if ?b then _ else _] => destruct b eqn:?
  end.

(** * Properties *)

(** ** Integers *)

Lemma wrap_int_small (z : Z) : minInt <= z <= maxInt -> wrap_int z = z.
Proof.
  unfold wrap_int, minInt, maxInt; intros Hz.
  rewrite Z.mod_small; lia.
Qed.

Lemma wrap_int_range (z : Z) : minInt <= wrap_int z <= maxInt.
Proof.
  unfold wrap_int, minInt, maxInt.
  pose proof (Z.mod_pos_bound (z + 2 ^ 63) (2 ^ 64)); lia.
Qed.

Lemma len_nonneg (s : string) : 0 <= len s.
Proof. unfold len; lia. Qed.

Lemma len_empty (s : string) : len s = 0 <-> s = EmptyString.
Proof.
  unfold len; destruct s; simpl; split; intros Hs; try reflexivity; try discriminate; lia.
Qed.

(** ** strconv.Atoi *)

Module strconv_facts.
Import strconv.

(** The fast loop ends with a number or with the syntax error. *)
Lemma atoi_digits_shape (s0 s : string) (n : Z) :
  (exists m, atoi_digits s0 s n = (m, None))
  \/ atoi_digits s0 s n = (0, Some (syntaxError fnAtoi s0)).
Proof.
  revert n; induction s as [|ch s IH]; simpl; intros n.
  - left; eauto.
  - destruct (9 <? wrap_byte (byte_of ch - 48)); [right; reflexivity | apply IH].
Qed.

Lemma atoi_fast_shape (s : string) :
  (exists m, atoi_fast s = (m, None))
  \/ atoi_fast s = (0, Some (syntaxError fnAtoi s)).
Proof.
  unfold atoi_fast; destruct s as [|c rest]; [right; reflexivity|].
  destruct ((Ascii.eqb c "-" || Ascii.eqb c "+") && (len rest <? 1));
    [right; reflexivity|].
  destruct (atoi_digits_shape (String c rest)
              (if Ascii.eqb c "-" || Ascii.eqb c "+" then rest else String c rest) 0)
    as [[m Hm] | Hm]; rewrite Hm; [left; eauto | right; reflexivity].
Qed.

(** The loop of [ParseUint] ends with a number, with the syntax error and
    0, or with the range error and the largest [uint64]. *)
Lemma parseUint_loop_shape (s0 s : string) (n : Z) :
  (exists m, parseUint_loop s0 s n = (m, None))
  \/ parseUint_loop s0 s n = (0, Some (syntaxError fnParseUint s0))
  \/ parseUint_loop s0 s n = (maxUint64, Some (rangeError fnParseUint s0)).
Proof.
  revert n; induction s as [|c s IH]; simpl; intros n.
  - left; eauto.
  - destruct (digit_of (byte_of c)) as [d|]; [|right; left; reflexivity].
    case_if; [right; left; reflexivity|].
    case_if; [right; right; reflexivity|].
    case_if; [right; right; reflexivity | apply IH].
Qed.

Lemma ParseUint_shape (s : string) :
  (exists m, ParseUint s = (m, None))
  \/ (exists e, ParseUint s = (0, Some e) /\ Err e = ErrSyntax)
  \/ (exists e, ParseUint s = (maxUint64, Some e) /\ Err e = ErrRange).
Proof.
  unfold ParseUint; destruct s as [|c s].
  - right; left; eexists; split; reflexivity.
  - destruct (parseUint_loop_shape (String c s) (String c s) 0) as [Hm | [Hm | Hm]].
    + left; exact Hm.
    + right; left; eexists; split; [exact Hm | reflexivity].
    + right; right; eexists; split; [exact Hm | reflexivity].
Qed.

(** [ParseInt] ends with a number, with the syntax error and 0, or with
    the range error and the bound of the sign. *)
Lemma ParseInt_shape (s : string) :
  (exists m, ParseInt s = (m, None))
  \/ ParseInt s = (0, Some (syntaxError fnParseInt s))
  \/ ParseInt s = (maxInt, Some (rangeError fnParseInt s))
  \/ ParseInt s = (minInt, Some (rangeError fnParseInt s)).
Proof.
  unfold ParseInt; destruct s as [|c rest]; [right; left; reflexivity|].
  set (s' := if Ascii.eqb c "+" || Ascii.eqb c "-" then rest else String c rest).
  destruct (ParseUint_shape s') as [[m Hm] | [[e [He Hk]] | [e [He Hk]]]];
    rewrite ?Hm, ?He; simpl option_map; rewrite ?Hk.
  - destruct (negb (Ascii.eqb c "-") && (2 ^ (intSize - 1) <=? m));
      [right; right; left; reflexivity|].
    destruct (Ascii.eqb c "-" && (2 ^ (intSize - 1) <? m));
      [right; right; right; reflexivity | left; eauto].
  - right; left; reflexivity.
  - destruct (Ascii.eqb c "-"); [right; right; right | right; right; left];
      reflexivity.
Qed.

(** When [Atoi] reports an error, the error names [Atoi] and the input;
    the value beside it is 0 for a syntax error, and the bound of the sign
    for a range error. *)
Lemma Atoi_error (s : string) (v : Z) (e : error) :
  Atoi s = (v, Some e) ->
  exists k,
    e = StrconvError (mkNumError "Atoi" s k)
    /\ match k with
       | ErrSyntax => v = 0
       | ErrRange => v = maxInt \/ v = minInt
       end.
Proof.
  unfold Atoi.
  destruct ((intSize =? 32) && ((0 <? len s) && (len s <? 10))
            || (intSize =? 64) && ((0 <? len s) && (len s <? 19))).
  - destruct (atoi_fast_shape s) as [[m Hm] | Hm]; rewrite Hm; simpl;
      intros Heq; inversion Heq; subst.
    exists ErrSyntax; split; reflexivity.
  - destruct (ParseInt_shape s) as [[m Hm] | [Hm | [Hm | Hm]]]; rewrite Hm; simpl;
      intros Heq; inversion Heq; subst.
    + exists ErrSyntax; split; reflexivity.
    + exists ErrRange; split; [reflexivity | left; reflexivity].
    + exists ErrRange; split; [reflexivity | right; reflexivity].
Qed.

(** The value of [Atoi] is an [int]. *)
Lemma Atoi_range (s : string) : minInt <= fst (Atoi s) <= maxInt.
Proof.
  unfold Atoi.
  destruct ((intSize =? 32) && ((0 <? len s) && (len s <? 10))
            || (intSize =? 64) && ((0 <? len s) && (len s <? 19))).
  - unfold atoi_fast; destruct s as [|c rest]; [simpl; unfold minInt, maxInt; lia|].
    destruct ((Ascii.eqb c "-" || Ascii.eqb c "+") && (len rest <? 1));
      [simpl; unfold minInt, maxInt; lia|].
    set (digits := if Ascii.eqb c "-" || Ascii.eqb c "+" then rest else String c rest).
    assert (Hd : forall s0 t n, minInt <= n <= maxInt ->
                 minInt <= fst (atoi_digits s0 t n) <= maxInt).
    { intros s0 t; induction t as [|ch t IH]; simpl; intros n Hn; [exact Hn|].
      destruct (9 <? wrap_byte (byte_of ch - 48));
        [simpl; unfold minInt, maxInt; lia | apply IH, wrap_int_range]. }
    pose proof (Hd (String c rest) digits 0) as H0.
    destruct (atoi_digits (String c rest) digits 0) as [n [e|]]; simpl in *.
    + unfold minInt, maxInt; lia.
    + destruct (Ascii.eqb c "-"); [apply wrap_int_range|].
      apply H0; unfold minInt, maxInt; lia.
  - destruct (ParseInt s) as [i64 err]; simpl; apply wrap_int_range.
Qed.

End strconv_facts.

(** ** Validation *)

(** Every rejection of [validateUser] carries status 400. *)
Lemma validateUser_code (name : string) (age : Z) (e : HTTPError) :
  validateUser name age = Some e -> Code e = 400.
Proof.
  unfold validateUser; repeat case_if; intros He; inversion He; reflexivity.
Qed.

(** C1. [validateUser name age] accepts exactly when the name has between 1
    and 100 bytes and [0 <= age < 200]. Otherwise it rejects with status
    400 and one message, that of the first rule violated: the empty name,
    then the name longer than 100, then the age out of range. *)
Theorem validateUser_first_violation (name : string) (age : Z) :
  (validateUser name age = None
   <-> (1 <= len name <= 100 /\ 0 <= age < 200))
  /\ (len name = 0 ->
      validateUser name age = Some (NewHTTPError 400 "name is empty"))
  /\ (100 < len name ->
      validateUser name age = Some (NewHTTPError 400 "name is too long"))
  /\ (1 <= len name <= 100 -> age < 0 \/ 200 <= age ->
      validateUser name age
      = Some (NewHTTPError 400 "age must be between 0 and 200")).
Proof.
  pose proof (len_nonneg name) as Hlen.
  pose proof (len_empty name) as Hempty.
  unfold validateUser, StatusBadRequest.
  destruct (String.eqb_spec name EmptyString) as [Heq | Hne].
  - apply Hempty in Heq.
    repeat split; intros; try reflexivity; try discriminate; lia.
  - assert (len name <> 0) by (intros H0; apply Hne, Hempty, H0).
    destruct (Z.ltb_spec 100 (len name)).
    + repeat split; intros; try reflexivity; try discriminate; lia.
    + destruct (Z.ltb_spec age 0); destruct (Z.leb_spec 200 age); simpl;
        repeat split; intros; try reflexivity; try discriminate; lia.
Qed.

(** ** Handlers *)

Section Service.
Context {text : GoText}.

(** A handler that calls the database once and then computes. *)
Lemma run_Exec {A : Type} (d : Driver) (s : conn d) (q : string)
    (args : list sqlArg) (k : result Result -> action A) :
  run d (r <- Exec q args ;; k r) s
  = let '(r, s') := driver_exec d q args s in
    let '(a, s'', sent) := run d (k r) s' in
    (a, s'', mkStatement q args :: sent).
Proof. reflexivity. Qed.

Lemma run_Query {A : Type} (d : Driver) (s : conn d) (q : string)
    (args : list sqlArg) (k : result Rows -> action A) :
  run d (r <- Query q args ;; k r) s
  = let '(r, s') := driver_query d q args s in
    let '(a, s'', sent) := run d (k r) s' in
    (a, s'', mkStatement q args :: sent).
Proof. reflexivity. Qed.

Lemma run_QueryRow {A : Type} (d : Driver) (s : conn d) (q : string)
    (args : list sqlArg) (k : Row -> action A) :
  run d (r <- QueryRow q args ;; k r) s
  = let '(r, s') := driver_query_row d q args s in
    let '(a, s'', sent) := run d (k r) s' in
    (a, s'', mkStatement q args :: sent).
Proof. reflexivity. Qed.

(** C2, amended. POST /users validates nothing: whatever the form holds,
    it sends one statement, the insert of the submitted name and of the
    age [Atoi] gave, its error dropped. That age is 0 where [Atoi] reports
    a syntax error, and the largest or the smallest [int] where it reports
    a range error. When the store accepts the insert, the response is 200
    with the JSON User of the store's insert id and of that name and
    age. *)
Theorem POST_users_inserts_unvalidated (c : Context) (d : Driver) (s : conn d) :
  let name := FormValue c "name" in
  let age := fst (strconv.Atoi (FormValue c "age")) in
  let insert :=
    mkStatement "INSERT INTO users(name, age) VALUES(?, ?)"
      [ArgString name; ArgInt age] in
  snd (run d (POST_users c) s) = [insert]
  /\ (forall e, snd (strconv.Atoi (FormValue c "age")) = Some e ->
      exists k,
        e = StrconvError (mkNumError "Atoi" (FormValue c "age") k)
        /\ match k with
           | ErrSyntax => age = 0
           | ErrRange => age = maxInt \/ age = minInt
           end)
  /\ (forall result s',
      driver_exec d (stmt_text insert) (stmt_args insert) s = (Ok result, s') ->
      minInt <= fst (LastInsertId result) <= maxInt ->
      run d (POST_users c) s
      = (Sent (mkResponse 200
                 (JSONBody (User_json (mkUser (fst (LastInsertId result)) name age)))),
         s', [insert])).
Proof.
  cbv zeta; unfold POST_users.
  destruct (strconv.Atoi (FormValue c "age")) as [age err] eqn:Hage; simpl fst; simpl snd.
  rewrite run_Exec.
  split; [|split].
  - destruct (driver_exec d _ _ s) as [[result | e] s']; simpl.
    + destruct (LastInsertId result); reflexivity.
    + reflexivity.
  - intros e He; subst err.
    apply (strconv_facts.Atoi_error _ _ _ Hage).
  - intros result s' Hexec Hid; simpl in Hexec; rewrite Hexec.
    destruct (LastInsertId result) as [id ierr]; simpl in *.
    rewrite (wrap_int_small id Hid); reflexivity.
Qed.

(** C3. PUT /users/:id with an id and an age that parse: a name or age
    that fails validation gives 400 with the message of the violated rule;
    valid input whose update affects no row gives 404; valid input whose
    update affects a row gives 200 with a JSON User. *)
Theorem PUT_users_id_responses (c : Context) (d : Driver) (s : conn d) (id age : Z) :
  strconv.Atoi (Param c "id") = (id, None) ->
  strconv.Atoi (FormValue c "age") = (age, None) ->
  let name := FormValue c "name" in
  let response := fst (fst (run d (PUT_users_id c) s)) in
  (forall e, validateUser name age = Some e ->
     response = Failed e /\ http_status response = 400)
  /\ (validateUser name age = None ->
      forall result s',
        driver_exec d "UPDATE users SET name = ?, age = ? WHERE id = ?"
          [ArgString name; ArgInt age; ArgInt id] s = (Ok result, s') ->
        (fst (RowsAffected result) = 0 ->
         response = Failed (NewHTTPError 404 "Not Found"))
        /\ (fst (RowsAffected result) <> 0 ->
            exists u, response = Sent (mkResponse 200 (JSONBody (User_json u))))).
Proof.
  intros Hid Hage; cbv zeta; unfold PUT_users_id; rewrite Hid, Hage.
  split.
  - intros e He; rewrite He; simpl; split; [reflexivity|].
    exact (validateUser_code _ _ _ He).
  - intros Hv result s' Hexec; rewrite Hv, run_Exec, Hexec.
    destruct (RowsAffected result) as [rows rerr]; simpl.
    split; intros Hrows.
    + subst rows; reflexivity.
    + apply Z.eqb_neq in Hrows; rewrite Hrows; simpl.
      eexists; reflexivity.
Qed.

(** C4. A successful PUT /users/:id answers from its own inputs: the only
    statement sent is the update (nothing is read back), and the JSON body
    carries the id parsed from the path and the submitted name and age. *)
Theorem PUT_users_id_echoes_request (c : Context) (d : Driver) (s s' : conn d)
    (id age : Z) (result : Result) :
  strconv.Atoi (Param c "id") = (id, None) ->
  strconv.Atoi (FormValue c "age") = (age, None) ->
  validateUser (FormValue c "name") age = None ->
  driver_exec d "UPDATE users SET name = ?, age = ? WHERE id = ?"
    [ArgString (FormValue c "name"); ArgInt age; ArgInt id] s = (Ok result, s') ->
  fst (RowsAffected result) <> 0 ->
  run d (PUT_users_id c) s
  = (Sent (mkResponse 200
             (JSONBody (JObject [("id", JNumber id);
                                 ("name", JString (FormValue c "name"));
                                 ("age", JNumber age)]))),
     s',
     [mkStatement "UPDATE users SET name = ?, age = ? WHERE id = ?"
        [ArgString (FormValue c "name"); ArgInt age; ArgInt id]]).
Proof.
  intros Hid Hage Hv Hexec Hrows.
  unfold PUT_users_id; rewrite Hid, Hage, Hv, run_Exec, Hexec.
  destruct (RowsAffected result) as [rows rerr]; simpl in *.
  apply Z.eqb_neq in Hrows; rewrite Hrows; reflexivity.
Qed.

(** C5. DELETE /users/:id with an id that parses and a delete that the
    store executes: no row affected gives 404, otherwise 204 with an empty
    body. *)
Theorem DELETE_users_id_responses (c : Context) (d : Driver) (s s' : conn d)
    (id : Z) (result : Result) :
  strconv.Atoi (Param c "id") = (id, None) ->
  driver_exec d "DELETE FROM users WHERE id = ?" [ArgInt id] s = (Ok result, s') ->
  let response := fst (fst (run d (DELETE_users_id c) s)) in
  (fst (RowsAffected result) = 0 ->
   response = Failed (NewHTTPError 404 "Not Found"))
  /\ (fst (RowsAffected result) <> 0 ->
      response = Sent (mkResponse 204 NoBody)).
Proof.
  intros Hid Hexec; cbv zeta; unfold DELETE_users_id.
  rewrite Hid, run_Exec, Hexec.
  destruct (RowsAffected result) as [rows rerr]; simpl.
  split; intros Hrows.
  - subst rows; reflexivity.
  - apply Z.eqb_neq in Hrows; rewrite Hrows; reflexivity.
Qed.

(** C6. GET /users/:id with an id that parses: when the query yields no
    row, [Scan] fails with [sql.ErrNoRows] and the handler answers 500
    with that error's message, not 404; when it yields a row, the handler
    answers 200 with that row as a JSON User. *)
Theorem GET_users_id_responses (c : Context) (d : Driver) (s s' : conn d)
    (id : Z) (row : Row) :
  strconv.Atoi (Param c "id") = (id, None) ->
  driver_query_row d "SELECT id, name, age FROM users WHERE id = ?" [ArgInt id] s
  = (row, s') ->
  row_err row = None ->
  let response := fst (fst (run d (GET_users_id c) s)) in
  (pending (row_rows row) = [] -> iter_err (row_rows row) = None ->
   response = Failed (NewHTTPError 500 (Error ErrNoRows))
   /\ Error ErrNoRows = "sql: no rows in result set"
   /\ http_status response <> 404)
  /\ (forall id' name age rest,
      pending (row_rows row) = Ok (id', name, age) :: rest ->
      close_err (row_rows row) = None ->
      response = Sent (mkResponse 200 (JSONBody (User_json (mkUser id' name age))))).
Proof.
  intros Hid Hquery Herr; cbv zeta; unfold GET_users_id.
  rewrite Hid, run_QueryRow, Hquery; unfold Row_Scan; rewrite Herr.
  split.
  - intros Hnone Hiter; rewrite Hnone, Hiter; simpl.
    repeat split; discriminate.
  - intros id' name age rest Hrow Hclose; rewrite Hrow, Hclose; reflexivity.
Qed.

(** The loop of GET /users appends every row that scans, in order. *)
Lemma scan_users_all (users acc : list User) :
  scan_users (map as_row users) (mk_slice acc) = Ok (mk_slice (acc ++ users)).
Proof.
  revert acc; induction users as [|u users IH]; intros acc; simpl.
  - rewrite app_nil_r; reflexivity.
  - destruct u as [id name age]; simpl; rewrite IH, <- app_assoc; reflexivity.
Qed.

(** C7. GET /users on a query that yields no row answers 200 with the
    empty JSON array, written [[]] and not [null]; in general the array
    has one element per row scanned, in the order of the rows. *)
Theorem GET_users_lists_rows (c : Context) (d : Driver) (s s' : conn d) (rows : Rows) :
  driver_query d "SELECT id, name, age FROM users" [] s = (Ok rows, s') ->
  let response := fst (fst (run d (GET_users c) s)) in
  (pending rows = [] ->
   response = Sent (mkResponse 200 (JSONBody (JArray [])))
   /\ json_text (JArray []) = "[]"
   /\ json_text (JArray []) <> json_text JNull)
  /\ (forall users, pending rows = map as_row users ->
      response = Sent (mkResponse 200 (JSONBody (JArray (map User_json users))))
      /\ List.length (map User_json users) = List.length (pending rows)).
Proof.
  intros Hquery; cbv zeta; unfold GET_users.
  rewrite run_Query, Hquery.
  split.
  - intros Hnone; rewrite Hnone; simpl.
    repeat split; discriminate.
  - intros users Hrows; rewrite Hrows, scan_users_all; simpl.
    split; [reflexivity | rewrite !length_map; reflexivity].
Qed.

(** C8. An id that [Atoi] rejects makes GET, PUT and DELETE /users/:id
    answer 500, not 400, with the message of the error [Atoi] returned,
    the [NumError] of [Atoi] on that id; so does, on PUT, an age that
    [Atoi] rejects. *)
Theorem malformed_integer_is_500 (c : Context) :
  (forall v err,
      strconv.Atoi (Param c "id") = (v, Some err) ->
      let e := NewHTTPError 500 (Error err) in
      GET_users_id c = Return (Failed e)
      /\ PUT_users_id c = Return (Failed e)
      /\ DELETE_users_id c = Return (Failed e)
      /\ http_status (Failed e) <> 400
      /\ exists k,
          err = StrconvError (mkNumError "Atoi" (Param c "id") k)
          /\ Error err
             = "strconv.Atoi: parsing " ++ Quote (Param c "id") ++ ": "
               ++ numErrKind_text k)
  /\ (forall id v err,
      strconv.Atoi (Param c "id") = (id, None) ->
      strconv.Atoi (FormValue c "age") = (v, Some err) ->
      let e := NewHTTPError 500 (Error err) in
      PUT_users_id c = Return (Failed e)
      /\ http_status (Failed e) <> 400
      /\ exists k,
          err = StrconvError (mkNumError "Atoi" (FormValue c "age") k)
          /\ Error err
             = "strconv.Atoi: parsing " ++ Quote (FormValue c "age") ++ ": "
               ++ numErrKind_text k).
Proof.
  unfold GET_users_id, PUT_users_id, DELETE_users_id; split.
  - intros v err Hid; cbv zeta; rewrite Hid.
    destruct (strconv_facts.Atoi_error _ _ _ Hid) as [k [He _]].
    repeat split; try discriminate.
    exists k; split; [exact He | subst err; reflexivity].
  - intros id v err Hid Hage; cbv zeta; rewrite Hid, Hage.
    destruct (strconv_facts.Atoi_error _ _ _ Hage) as [k [He _]].
    repeat split; try discriminate.
    exists k; split; [exact He | subst err; reflexivity].
Qed.

(** C9. A PUT /users/:id that fails on its id, on its age or on
    validation sends no statement and leaves the store as it was. *)
Theorem PUT_users_id_failure_sends_nothing (c : Context) (d : Driver) (s : conn d) :
  snd (strconv.Atoi (Param c "id")) <> None
  \/ snd (strconv.Atoi (FormValue c "age")) <> None
  \/ validateUser (FormValue c "name") (fst (strconv.Atoi (FormValue c "age"))) <> None ->
  exists e, run d (PUT_users_id c) s = (Failed e, s, []).
Proof.
  unfold PUT_users_id.
  destruct (strconv.Atoi (Param c "id")) as [id [e|]]; simpl;
    [intros _; eexists; reflexivity|].
  destruct (strconv.Atoi (FormValue c "age")) as [age [e|]]; simpl;
    [intros _; eexists; reflexivity|].
  destruct (validateUser (FormValue c "name") age) as [e|];
    [intros _; eexists; reflexivity|].
  intros [Hn | [Hn | Hn]]; contradiction Hn; reflexivity.
Qed.

End Service.

(** ** Bytes and characters *)

(** A property checked on every number below a bound holds below it. *)
Lemma below_forallb (P : Z -> bool) (n : nat) :
  forallb P (map Z.of_nat (seq 0 n)) = true ->
  forall x, 0 <= x < Z.of_nat n -> P x = true.
Proof.
  intros Hall x Hx.
  rewrite forallb_forall in Hall; apply Hall.
  apply in_map_iff; exists (Z.to_nat x); split; [lia|].
  apply in_seq; lia.
Qed.

Lemma byte_of_ascii (b : Z) :
  is_byte b = true -> byte_of (ascii_of_N (Z.to_N b)) = b.
Proof.
  unfold is_byte, byte_of; intros Hb.
  apply andb_prop in Hb; destruct Hb as [H0 H1].
  apply Z.leb_le in H0; apply Z.ltb_lt in H1.
  rewrite N_ascii_embedding; lia.
Qed.

Lemma count_chars_bytes (l : list Z) :
  forallb is_byte l = true -> count_chars (string_of_bytes l) = count_leads l.
Proof.
  induction l as [|b l IH]; simpl; intros Hl; [reflexivity|].
  apply andb_prop in Hl; destruct Hl as [Hb Hl].
  rewrite (byte_of_ascii b Hb), (IH Hl); reflexivity.
Qed.

Lemma count_leads_app (l1 l2 : list Z) :
  count_leads (l1 ++ l2) = count_leads l1 + count_leads l2.
Proof. induction l1 as [|b l1 IH]; simpl; [reflexivity | rewrite IH; lia]. Qed.

Lemma ascii_lead (x : Z) : 0 <= x < 128 -> is_byte x && negb (is_continuation x) = true.
Proof.
  apply (below_forallb (fun x => is_byte x && negb (is_continuation x)) 128).
  vm_compute; reflexivity.
Qed.

Lemma lead2 (x : Z) : 0 <= x < 32 -> lead_ok 192 x = true.
Proof. apply (below_forallb (lead_ok 192) 32); vm_compute; reflexivity. Qed.

Lemma lead3 (x : Z) : 0 <= x < 16 -> lead_ok 224 x = true.
Proof. apply (below_forallb (lead_ok 224) 16); vm_compute; reflexivity. Qed.

Lemma lead4 (x : Z) : 0 <= x < 8 -> lead_ok 240 x = true.
Proof. apply (below_forallb (lead_ok 240) 8); vm_compute; reflexivity. Qed.

Lemma continuation (y : Z) : continuation_ok (Z.land y 63) = true.
Proof.
  apply (below_forallb continuation_ok 64); [vm_compute; reflexivity|].
  change 63 with (Z.ones 6); rewrite Z.land_ones by lia.
  change (Z.of_nat 64) with (2 ^ 6); apply Z.mod_pos_bound; lia.
Qed.

Lemma shiftr_below (r k bound : Z) :
  0 <= k -> 0 <= r < bound * 2 ^ k -> 0 <= Z.shiftr r k < bound.
Proof.
  intros Hk Hr; rewrite Z.shiftr_div_pow2 by exact Hk.
  assert (0 < 2 ^ k) by (apply Z.pow_pos_nonneg; lia).
  split; [apply Z.div_pos; lia | apply Z.div_lt_upper_bound; lia].
Qed.

(** A code point is written as bytes, of which exactly the first is not a
    continuation byte. *)
Lemma encode_rune_one_char (r : Z) :
  0 <= r <= 1114111 ->
  forallb is_byte (encode_rune r) = true /\ count_leads (encode_rune r) = 1.
Proof.
  intros Hr; unfold encode_rune.
  rewrite (Z.mod_small r (2 ^ 32)) by lia.
  destruct (Z.leb_spec r 127) as [H1|H1].
  { pose proof (ascii_lead r ltac:(lia)) as Ha.
    apply andb_prop in Ha; destruct Ha as [Hb Hc]; apply negb_true_iff in Hc.
    simpl; rewrite Hb, Hc; split; reflexivity. }
  destruct (Z.leb_spec r 2047) as [H2|H2].
  { pose proof (lead2 (Z.shiftr r 6) (shiftr_below r 6 32 ltac:(lia) ltac:(lia))) as Ha.
    pose proof (continuation r) as Hc0.
    unfold lead_ok, continuation_ok in *.
    apply andb_prop in Ha; destruct Ha as [Hb Hc]; apply negb_true_iff in Hc.
    apply andb_prop in Hc0; destruct Hc0 as [Hb0 Hc0].
    cbn [forallb count_leads]; rewrite Hb, Hc, Hb0, Hc0; split; reflexivity. }
  case_if; [split; reflexivity|].
  destruct (Z.leb_spec r 65535) as [H3|H3].
  { pose proof (lead3 (Z.shiftr r 12) (shiftr_below r 12 16 ltac:(lia) ltac:(lia))) as Ha.
    pose proof (continuation (Z.shiftr r 6)) as Hc1.
    pose proof (continuation r) as Hc0.
    unfold lead_ok, continuation_ok in *.
    apply andb_prop in Ha; destruct Ha as [Hb Hc]; apply negb_true_iff in Hc.
    apply andb_prop in Hc1; destruct Hc1 as [Hb1 Hc1].
    apply andb_prop in Hc0; destruct Hc0 as [Hb0 Hc0].
    cbn [forallb count_leads]; rewrite Hb, Hc, Hb1, Hc1, Hb0, Hc0; split; reflexivity. }
  pose proof (lead4 (Z.shiftr r 18) (shiftr_below r 18 8 ltac:(lia) ltac:(lia))) as Ha.
  pose proof (continuation (Z.shiftr r 12)) as Hc2.
  pose proof (continuation (Z.shiftr r 6)) as Hc1.
  pose proof (continuation r) as Hc0.
  unfold lead_ok, continuation_ok in *.
  apply andb_prop in Ha; destruct Ha as [Hb Hc]; apply negb_true_iff in Hc.
  apply andb_prop in Hc2; destruct Hc2 as [Hb2 Hc2].
  apply andb_prop in Hc1; destruct Hc1 as [Hb1 Hc1].
  apply andb_prop in Hc0; destruct Hc0 as [Hb0 Hc0].
  cbn [forallb count_leads]; rewrite Hb, Hc, Hb2, Hc2, Hb1, Hc1, Hb0, Hc0; split; reflexivity.
Qed.

(** [count_chars] counts the code points a text was written from. *)
Lemma count_chars_runes (runes : list Z) :
  Forall (fun r => 0 <= r <= 1114111) runes ->
  count_chars (string_of_runes runes) = Z.of_nat (List.length runes).
Proof.
  unfold string_of_runes; intros Hall.
  assert (Hboth : forallb is_byte (flat_map encode_rune runes) = true
                  /\ count_leads (flat_map encode_rune runes)
                     = Z.of_nat (List.length runes)).
  { induction Hall as [|r runes Hr Hall IH]; [split; reflexivity|].
    destruct IH as [IHb IHc].
    destruct (encode_rune_one_char r Hr) as [Hb Hc].
    cbn [flat_map List.length]; rewrite forallb_app, count_leads_app, Hb, Hc, IHb, IHc.
    split; [reflexivity | lia]. }
  destruct Hboth as [Hb Hc]; rewrite count_chars_bytes; assumption.
Qed.

(** C10. The length rule counts bytes, not characters: some name of at
    most 100 characters and more than 100 bytes is rejected as too long,
    and no name of at most 100 bytes is. *)
Theorem name_length_counts_bytes :
  (exists name,
      count_chars name <= 100
      /\ 100 < len name
      /\ forall age,
          validateUser name age = Some (NewHTTPError 400 "name is too long"))
  /\ (forall name age,
      len name <= 100 ->
      validateUser name age <> Some (NewHTTPError 400 "name is too long")).
Proof.
  split.
  - exists (string_of_runes (repeat 12354 34)).
    split; [vm_compute; discriminate|].
    split; [vm_compute; reflexivity|].
    intros age; vm_compute; reflexivity.
  - intros name age Hlen; unfold validateUser.
    destruct (Z.ltb_spec 100 (len name)); [lia|].
    repeat case_if; discriminate.
Qed.

(** ** The handlers on the reference database *)

(** C2 as stated fails: an age one past the largest [int] is rejected by
    [Atoi], and POST /users stores and returns the largest [int], not 0. *)
Lemma POST_users_unparsable_age_not_zero :
  (snd (strconv.Atoi (FormValue post_huge_age "age"))
   = Some (StrconvError (mkNumError "Atoi" "9223372036854775808" ErrRange))
   /\ run tableDriver (POST_users (text := plainText) post_huge_age) empty_table
      = (Sent (mkResponse 200
                 (JSONBody (User_json (mkUser 1 "Alice" 9223372036854775807)))),
         mkTable [mkUser 1 "Alice" 9223372036854775807] 1,
         [mkStatement "INSERT INTO users(name, age) VALUES(?, ?)"
            [ArgString "Alice"; ArgInt 9223372036854775807]]))
  /\ ~ (snd (strconv.Atoi (FormValue post_huge_age "age")) <> None ->
        run tableDriver (POST_users (text := plainText) post_huge_age) empty_table
        = (Sent (mkResponse 200 (JSONBody (User_json (mkUser 1 "Alice" 0)))),
           mkTable [mkUser 1 "Alice" 0] 1,
           [mkStatement "INSERT INTO users(name, age) VALUES(?, ?)"
              [ArgString "Alice"; ArgInt 0]])).
Proof.
  split.
  - split; vm_compute; reflexivity.
  - intros Hclaim.
    assert (Herr : snd (strconv.Atoi (FormValue post_huge_age "age")) <> None)
      by (vm_compute; discriminate).
    specialize (Hclaim Herr); vm_compute in Hclaim; discriminate.
Qed.

(** Bob replaces Alice under id 1: the update is answered with 200. *)
Lemma PUT_users_id_responses_witness :
  strconv.Atoi (Param put_bob "id") = (1, None)
  /\ strconv.Atoi (FormValue put_bob "age") = (31, None)
  /\ exists u,
      fst (fst (run tableDriver (PUT_users_id (text := plainText) put_bob) alice_table))
      = Sent (mkResponse 200 (JSONBody (User_json u))).
Proof.
  split; [reflexivity | split; [reflexivity|]].
  refine (proj2 (proj2 (PUT_users_id_responses (text := plainText)
                          put_bob tableDriver alice_table 1 31 eq_refl eq_refl)
                   eq_refl _ _ eq_refl) _).
  vm_compute; discriminate.
Defined.

(** The same update, with the table and the statement it leaves behind. *)
Lemma PUT_users_id_echoes_request_witness :
  run tableDriver (PUT_users_id (text := plainText) put_bob) alice_table
  = (Sent (mkResponse 200
             (JSONBody (JObject [("id", JNumber 1); ("name", JString "Bob");
                                 ("age", JNumber 31)]))),
     mkTable [mkUser 1 "Bob" 31] 1,
     [mkStatement "UPDATE users SET name = ?, age = ? WHERE id = ?"
        [ArgString "Bob"; ArgInt 31; ArgInt 1]]).
Proof.
  refine (PUT_users_id_echoes_request (text := plainText)
            put_bob tableDriver alice_table _ 1 31 _ eq_refl eq_refl eq_refl eq_refl _).
  vm_compute; discriminate.
Defined.

(** Deleting id 1 of the one-row table gives 204, deleting id 2 gives 404. *)
Lemma DELETE_users_id_responses_witness :
  fst (fst (run tableDriver (DELETE_users_id (text := plainText) (at_id "1")) alice_table))
  = Sent (mkResponse 204 NoBody)
  /\ fst (fst (run tableDriver (DELETE_users_id (text := plainText) (at_id "2")) alice_table))
     = Failed (NewHTTPError 404 "Not Found").
Proof.
  split.
  - refine (proj2 (DELETE_users_id_responses (text := plainText)
                     (at_id "1") tableDriver alice_table _ 1 _ eq_refl eq_refl) _).
    vm_compute; discriminate.
  - refine (proj1 (DELETE_users_id_responses (text := plainText)
                     (at_id "2") tableDriver alice_table _ 2 _ eq_refl eq_refl) _).
    reflexivity.
Defined.

(** Reading id 2 of the one-row table gives 500, reading id 1 gives the row. *)
Lemma GET_users_id_responses_witness :
  fst (fst (run tableDriver (GET_users_id (text := plainText) (at_id "2")) alice_table))
  = Failed (NewHTTPError 500 "sql: no rows in result set")
  /\ fst (fst (run tableDriver (GET_users_id (text := plainText) (at_id "1")) alice_table))
     = Sent (mkResponse 200 (JSONBody (User_json (mkUser 1 "Alice" 30)))).
Proof.
  split.
  - refine (proj1 (proj1 (GET_users_id_responses (text := plainText)
                            (at_id "2") tableDriver alice_table _ 2 _
                            eq_refl eq_refl eq_refl)
                     eq_refl eq_refl)).
  - refine (proj2 (GET_users_id_responses (text := plainText)
                     (at_id "1") tableDriver alice_table _ 1 _
                     eq_refl eq_refl eq_refl)
              1 "Alice" 30 [] eq_refl eq_refl).
Defined.

(** Listing the empty table gives the empty array, listing one row gives it. *)
Lemma GET_users_lists_rows_witness :
  fst (fst (run tableDriver (GET_users (text := plainText) (mkContext [] [])) empty_table))
  = Sent (mkResponse 200 (JSONBody (JArray [])))
  /\ fst (fst (run tableDriver (GET_users (text := plainText) (mkContext [] [])) alice_table))
     = Sent (mkResponse 200 (JSONBody (JArray [User_json (mkUser 1 "Alice" 30)]))).
Proof.
  split.
  - refine (proj1 (proj1 (GET_users_lists_rows (text := plainText)
                            (mkContext [] []) tableDriver empty_table _ _ eq_refl)
                     eq_refl)).
  - refine (proj1 (proj2 (GET_users_lists_rows (text := plainText)
                            (mkContext [] []) tableDriver alice_table _ _ eq_refl)
                     [mkUser 1 "Alice" 30] eq_refl)).
Defined.

(** An update with a malformed id, and one with age 200, leave the table alone. *)
Lemma PUT_users_id_failure_sends_nothing_witness :
  (exists e,
      run tableDriver
        (PUT_users_id (text := plainText) (mkContext [("id", "x")] [])) alice_table
      = (Failed e, alice_table, []))
  /\ (exists e,
      run tableDriver
        (PUT_users_id (text := plainText)
           (mkContext [("id", "1")] [("name", "Bob"); ("age", "200")]))
        alice_table
      = (Failed e, alice_table, [])).
Proof.
  split.
  - apply (PUT_users_id_failure_sends_nothing (text := plainText)
             (mkContext [("id", "x")] []) tableDriver alice_table).
    left; vm_compute; discriminate.
  - apply (PUT_users_id_failure_sends_nothing (text := plainText)
             (mkContext [("id", "1")] [("name", "Bob"); ("age", "200")])
             tableDriver alice_table).
    right; right; vm_compute; discriminate.
Defined.

(** ** Checks on concrete inputs *)

Example Atoi_30 : strconv.Atoi "30" = (30, None).
Proof. reflexivity. Qed.

Example Atoi_negative : strconv.Atoi "-7" = (-7, None).
Proof. reflexivity. Qed.

Example Atoi_plus : strconv.Atoi "+12" = (12, None).
Proof. reflexivity. Qed.

Example Atoi_empty :
  strconv.Atoi EmptyString
  = (0, Some (StrconvError (mkNumError "Atoi" EmptyString ErrSyntax))).
Proof. reflexivity. Qed.

Example Atoi_word :
  strconv.Atoi "abc" = (0, Some (StrconvError (mkNumError "Atoi" "abc" ErrSyntax))).
Proof. reflexivity. Qed.

Example Atoi_sign_only :
  strconv.Atoi "-" = (0, Some (StrconvError (mkNumError "Atoi" "-" ErrSyntax))).
Proof. reflexivity. Qed.

Example Atoi_max : strconv.Atoi "9223372036854775807" = (maxInt, None).
Proof. vm_compute; reflexivity. Qed.

Example Atoi_min : strconv.Atoi "-9223372036854775808" = (minInt, None).
Proof. vm_compute; reflexivity. Qed.

Example Atoi_under :
  strconv.Atoi "-99999999999999999999"
  = (minInt, Some (StrconvError (mkNumError "Atoi" "-99999999999999999999" ErrRange))).
Proof. vm_compute; reflexivity. Qed.

(** [ParseUint] reports the overflow it meets before it reaches the
    letter. *)
Example Atoi_overflow_before_letter :
  strconv.Atoi "99999999999999999999x"
  = (maxInt,
     Some (StrconvError (mkNumError "Atoi" "99999999999999999999x" ErrRange))).
Proof. vm_compute; reflexivity. Qed.

Example Atoi_long_word :
  strconv.Atoi "1234567890123456789x"
  = (0, Some (StrconvError (mkNumError "Atoi" "1234567890123456789x" ErrSyntax))).
Proof. vm_compute; reflexivity. Qed.

Example validateUser_empty_name_first :
  validateUser EmptyString 500 = Some (NewHTTPError 400 "name is empty").
Proof. reflexivity. Qed.

Example validateUser_age_200 :
  validateUser "Bob" 200 = Some (NewHTTPError 400 "age must be between 0 and 200").
Proof. reflexivity. Qed.

Example validateUser_age_199 : validateUser "Bob" 199 = None.
Proof. reflexivity. Qed.

Example json_text_numbers :
  json_text (text := plainText) (JArray [JNumber 1; JNumber (-2); JNull]) = "[1,-2,null]".
Proof. reflexivity. Qed.

Example json_text_nil_slice :
  json_text (text := plainText) (Users_json nil_slice) = "null".
Proof. reflexivity. Qed.

(** Create, update, delete, delete again. *)
Example crud_scenario :
  let post := mkContext [] [("name", "Alice"); ("age", "30")] in
  let '(r1, t1, _) := run tableDriver (POST_users (text := plainText) post) empty_table in
  let '(r2, t2, _) := run tableDriver (PUT_users_id (text := plainText) put_bob) t1 in
  let '(r3, t3, _) := run tableDriver (DELETE_users_id (text := plainText) (at_id "1")) t2 in
  let '(r4, t4, _) := run tableDriver (DELETE_users_id (text := plainText) (at_id "1")) t3 in
  r1 = Sent (mkResponse 200 (JSONBody (User_json (mkUser 1 "Alice" 30))))
  /\ r2 = Sent (mkResponse 200 (JSONBody (User_json (mkUser 1 "Bob" 31))))
  /\ r3 = Sent (mkResponse 204 NoBody)
  /\ http_status r4 = 404
  /\ t4 = mkTable [] 1.
Proof. vm_compute; repeat split; reflexivity. Qed.

(** * Further properties of the handlers *)

(** [validateUser] accepts exactly the names of 1 to 100 bytes with an age
    from 0 to 199. *)
Lemma validateUser_accepts (name : string) (age : Z) :
  validateUser name age = None <-> (1 <= len name <= 100 /\ 0 <= age < 200).
Proof.
  pose proof (len_nonneg name) as Hlen.
  pose proof (len_empty name) as Hempty.
  unfold validateUser.
  destruct (String.eqb_spec name EmptyString) as [Heq | Hne].
  - apply Hempty in Heq; split; [discriminate | lia].
  - assert (len name <> 0) by (intros H0; apply Hne, Hempty, H0).
    destruct (Z.ltb_spec 100 (len name)); [split; [discriminate | lia]|].
    destruct (Z.ltb_spec age 0); destruct (Z.leb_spec 200 age); simpl;
      split; intros; try reflexivity; try discriminate; lia.
Qed.

(** A key that is absent reads as the empty string. *)
Lemma first_value_missing (name : string) (l : list (string * string)) :
  ~ In name (map fst l) -> first_value name l = EmptyString.
Proof.
  induction l as [|[k v] l IH]; simpl; intros Hnot; [reflexivity|].
  destruct (String.eqb_spec k name) as [Heq | Hne].
  - contradiction Hnot; left; exact Heq.
  - apply IH; intros Hin; apply Hnot; right; exact Hin.
Qed.

(** The loop of GET /users stops at the first row that fails to scan. *)
Lemma scan_users_failure (users : list User) (err : error)
    (rest : list (result scanned)) (acc : slice User) :
  scan_users (map as_row users ++ Fail err :: rest) acc = Fail err.
Proof.
  revert acc; induction users as [|u users IH]; intros acc; simpl; [reflexivity|].
  apply IH.
Qed.

Section MoreService.
Context {text : GoText}.

(** What each handler sends, read off the request alone. *)
Lemma sent_DELETE_users_id (c : Context) (d : Driver) (s : conn d) :
  snd (run d (DELETE_users_id c) s)
  = match snd (strconv.Atoi (Param c "id")) with
    | Some _ => []
    | None =>
        [mkStatement "DELETE FROM users WHERE id = ?"
           [ArgInt (fst (strconv.Atoi (Param c "id")))]]
    end.
Proof.
  unfold DELETE_users_id.
  destruct (strconv.Atoi (Param c "id")) as [id [e|]]; cbn [fst snd];
    [reflexivity|].
  rewrite run_Exec.
  destruct (driver_exec d _ _ s) as [[result | e] s']; [|reflexivity].
  destruct (RowsAffected result) as [rows rerr]; destruct (rows =? 0); reflexivity.
Qed.

Lemma sent_POST_users (c : Context) (d : Driver) (s : conn d) :
  snd (run d (POST_users c) s)
  = [mkStatement "INSERT INTO users(name, age) VALUES(?, ?)"
       [ArgString (FormValue c "name");
        ArgInt (fst (strconv.Atoi (FormValue c "age")))]].
Proof.
  unfold POST_users.
  destruct (strconv.Atoi (FormValue c "age")) as [age err]; cbn [fst snd].
  rewrite run_Exec.
  destruct (driver_exec d _ _ s) as [[result | e] s']; [|reflexivity].
  destruct (LastInsertId result); reflexivity.
Qed.

Lemma sent_PUT_users_id (c : Context) (d : Driver) (s : conn d) :
  snd (run d (PUT_users_id c) s)
  = match snd (strconv.Atoi (Param c "id")),
          snd (strconv.Atoi (FormValue c "age")),
          validateUser (FormValue c "name") (fst (strconv.Atoi (FormValue c "age")))
    with
    | None, None, None =>
        [mkStatement "UPDATE users SET name = ?, age = ? WHERE id = ?"
           [ArgString (FormValue c "name");
            ArgInt (fst (strconv.Atoi (FormValue c "age")));
            ArgInt (fst (strconv.Atoi (Param c "id")))]]
    | _, _, _ => []
    end.
Proof.
  unfold PUT_users_id.
  destruct (strconv.Atoi (Param c "id")) as [id [e|]]; cbn [fst snd];
    [reflexivity|].
  destruct (strconv.Atoi (FormValue c "age")) as [age [e|]]; cbn [fst snd];
    [reflexivity|].
  destruct (validateUser (FormValue c "name") age) as [e|]; [reflexivity|].
  rewrite run_Exec.
  destruct (driver_exec d _ _ s) as [[result | e] s']; [|reflexivity].
  destruct (RowsAffected result) as [rows rerr]; destruct (rows =? 0); reflexivity.
Qed.

Lemma sent_GET_users (c : Context) (d : Driver) (s : conn d) :
  snd (run d (GET_users c) s) = [mkStatement "SELECT id, name, age FROM users" []].
Proof.
  unfold GET_users; rewrite run_Query.
  destruct (driver_query d _ _ s) as [[rows | e] s']; [|reflexivity].
  destruct (scan_users (pending rows) (mk_slice [])); reflexivity.
Qed.

Lemma sent_GET_users_id (c : Context) (d : Driver) (s : conn d) :
  snd (run d (GET_users_id c) s)
  = match snd (strconv.Atoi (Param c "id")) with
    | Some _ => []
    | None =>
        [mkStatement "SELECT id, name, age FROM users WHERE id = ?"
           [ArgInt (fst (strconv.Atoi (Param c "id")))]]
    end.
Proof.
  unfold GET_users_id.
  destruct (strconv.Atoi (Param c "id")) as [id [e|]]; cbn [fst snd];
    [reflexivity|].
  rewrite run_QueryRow.
  destruct (driver_query_row d _ _ s) as [row s'].
  destruct (Row_Scan row) as [[[id' name] age] | e]; reflexivity.
Qed.

(** X1. Whatever the request and the database, each handler sends at most
    one statement; its text is one of five constants, and the request
    reaches it only as bound parameters: the [int] that [Atoi] read as id,
    the form's name, the [int] read as age. DELETE and GET /users/:id send
    theirs when the id parses, PUT when moreover the age parses and the
    input is valid, POST and GET /users always. *)
Theorem handlers_send_fixed_statements (c : Context) (d : Driver) (s : conn d) :
  let sent (h : Context -> action outcome) := snd (run d (h c) s) in
  let id := fst (strconv.Atoi (Param c "id")) in
  let age := fst (strconv.Atoi (FormValue c "age")) in
  let name := FormValue c "name" in
  let id_parses :=
    match snd (strconv.Atoi (Param c "id")) with None => true | Some _ => false end in
  let age_parses :=
    match snd (strconv.Atoi (FormValue c "age")) with None => true | Some _ => false end in
  let valid :=
    match validateUser name age with None => true | Some _ => false end in
  (minInt <= id <= maxInt /\ minInt <= age <= maxInt)
  /\ sent DELETE_users_id
     = (if id_parses
        then [mkStatement "DELETE FROM users WHERE id = ?" [ArgInt id]]
        else [])
  /\ sent POST_users
     = [mkStatement "INSERT INTO users(name, age) VALUES(?, ?)"
          [ArgString name; ArgInt age]]
  /\ sent PUT_users_id
     = (if id_parses && age_parses && valid
        then [mkStatement "UPDATE users SET name = ?, age = ? WHERE id = ?"
                [ArgString name; ArgInt age; ArgInt id]]
        else [])
  /\ sent GET_users = [mkStatement "SELECT id, name, age FROM users" []]
  /\ sent GET_users_id
     = (if id_parses
        then [mkStatement "SELECT id, name, age FROM users WHERE id = ?" [ArgInt id]]
        else []).
Proof.
  cbv beta zeta.
  pose proof (strconv_facts.Atoi_range (Param c "id")) as Hid.
  pose proof (strconv_facts.Atoi_range (FormValue c "age")) as Hage.
  rewrite sent_DELETE_users_id, sent_POST_users, sent_PUT_users_id,
    sent_GET_users, sent_GET_users_id.
  destruct (snd (strconv.Atoi (Param c "id")));
    destruct (snd (strconv.Atoi (FormValue c "age")));
    destruct (validateUser (FormValue c "name")
                (fst (strconv.Atoi (FormValue c "age"))));
    repeat split; try apply Hid; try apply Hage.
Qed.

(** X2. The statuses each handler can answer with, whatever the request
    and the database: DELETE 204, 404 or 500; POST 200 or 500 (never 400);
    PUT 200, 400, 404 or 500; GET /users 200 or 500; GET /users/:id 200
    or 500 (never 404). *)
Theorem handler_statuses (c : Context) (d : Driver) (s : conn d) :
  let status (h : Context -> action outcome) :=
    http_status (fst (fst (run d (h c) s))) in
  In (status DELETE_users_id) [204; 404; 500]
  /\ In (status POST_users) [200; 500]
  /\ In (status PUT_users_id) [200; 400; 404; 500]
  /\ In (status GET_users) [200; 500]
  /\ In (status GET_users_id) [200; 500].
Proof.
  cbv beta zeta.
  unfold DELETE_users_id, POST_users, PUT_users_id, GET_users, GET_users_id.
  repeat split.
  - destruct (strconv.Atoi (Param c "id")) as [id [e|]]; [simpl; tauto|].
    rewrite run_Exec.
    destruct (driver_exec d _ _ s) as [[result | e] s']; [|simpl; tauto].
    destruct (RowsAffected result) as [rows rerr]; destruct (rows =? 0); simpl; tauto.
  - destruct (strconv.Atoi (FormValue c "age")) as [age err].
    rewrite run_Exec.
    destruct (driver_exec d _ _ s) as [[result | e] s']; [|simpl; tauto].
    destruct (LastInsertId result); simpl; tauto.
  - destruct (strconv.Atoi (Param c "id")) as [id [e|]]; [simpl; tauto|].
    destruct (strconv.Atoi (FormValue c "age")) as [age [e|]]; [simpl; tauto|].
    destruct (validateUser (FormValue c "name") age) as [e|] eqn:Hv.
    { simpl; rewrite (validateUser_code _ _ _ Hv); tauto. }
    rewrite run_Exec.
    destruct (driver_exec d _ _ s) as [[result | e] s']; [|simpl; tauto].
    destruct (RowsAffected result) as [rows rerr]; destruct (rows =? 0); simpl; tauto.
  - rewrite run_Query.
    destruct (driver_query d _ _ s) as [[rows | e] s']; [|simpl; tauto].
    destruct (scan_users (pending rows) (mk_slice [])); simpl; tauto.
  - destruct (strconv.Atoi (Param c "id")) as [id [e|]]; [simpl; tauto|].
    rewrite run_QueryRow.
    destruct (driver_query_row d _ _ s) as [row s'].
    destruct (Row_Scan row) as [[[id' name] age] | e]; simpl; tauto.
Qed.

(** X3. Every statement PUT /users/:id sends is an update whose name has
    1 to 100 bytes and whose age is from 0 to 199. *)
Theorem PUT_users_id_writes_only_valid_users (c : Context) (d : Driver)
    (s : conn d) (st : statement) :
  In st (snd (run d (PUT_users_id c) s)) ->
  exists name age id,
    st = mkStatement "UPDATE users SET name = ?, age = ? WHERE id = ?"
           [ArgString name; ArgInt age; ArgInt id]
    /\ 1 <= len name <= 100
    /\ 0 <= age < 200.
Proof.
  rewrite sent_PUT_users_id.
  destruct (snd (strconv.Atoi (Param c "id"))); [intros []|].
  destruct (snd (strconv.Atoi (FormValue c "age"))); [intros []|].
  destruct (validateUser _ _) eqn:Hv; [intros []|].
  apply validateUser_accepts in Hv; destruct Hv as [Hname Hage].
  intros [Hst | []]; subst st.
  do 3 eexists; split; [reflexivity | split; assumption].
Qed.

(** X4. PUT /users/:id sends its update exactly when the id parses, the
    age parses, the name has 1 to 100 bytes and the age is from 0 to 199;
    what the database then answers plays no part. *)
Theorem PUT_users_id_sends_iff_valid (c : Context) (d : Driver) (s : conn d) :
  snd (run d (PUT_users_id c) s) <> []
  <-> (snd (strconv.Atoi (Param c "id")) = None
       /\ snd (strconv.Atoi (FormValue c "age")) = None
       /\ 1 <= len (FormValue c "name") <= 100
       /\ 0 <= fst (strconv.Atoi (FormValue c "age")) < 200).
Proof.
  rewrite sent_PUT_users_id.
  pose proof (validateUser_accepts (FormValue c "name")
                (fst (strconv.Atoi (FormValue c "age")))) as Hv.
  destruct (snd (strconv.Atoi (Param c "id")));
    [split; [intros Hn; contradiction Hn; reflexivity | intros [Hd _]; discriminate]|].
  destruct (snd (strconv.Atoi (FormValue c "age")));
    [split; [intros Hn; contradiction Hn; reflexivity | intros [_ [Hd _]]; discriminate]|].
  destruct (validateUser _ _).
  - split; [intros Hn; contradiction Hn; reflexivity|].
    intros [_ [_ Hvalid]]; apply Hv in Hvalid; discriminate.
  - split; [intros _ | discriminate].
    split; [reflexivity | split; [reflexivity | apply Hv; reflexivity]].
Qed.

(** X5. When the insert fails, POST /users answers 500 with the message
    of the database's error. *)
Theorem POST_users_store_failure (c : Context) (d : Driver) (s s' : conn d)
    (e : error) :
  driver_exec d "INSERT INTO users(name, age) VALUES(?, ?)"
    [ArgString (FormValue c "name");
     ArgInt (fst (strconv.Atoi (FormValue c "age")))] s = (Fail e, s') ->
  fst (run d (POST_users c) s) = (Failed (NewHTTPError 500 (Error e)), s').
Proof.
  unfold POST_users.
  destruct (strconv.Atoi (FormValue c "age")) as [age err]; cbn [fst snd].
  intros Hexec; rewrite run_Exec, Hexec; reflexivity.
Qed.

(** X6. When the update fails, a PUT /users/:id that passed validation
    answers 500 with the message of the database's error. *)
Theorem PUT_users_id_store_failure (c : Context) (d : Driver) (s s' : conn d)
    (id age : Z) (e : error) :
  strconv.Atoi (Param c "id") = (id, None) ->
  strconv.Atoi (FormValue c "age") = (age, None) ->
  validateUser (FormValue c "name") age = None ->
  driver_exec d "UPDATE users SET name = ?, age = ? WHERE id = ?"
    [ArgString (FormValue c "name"); ArgInt age; ArgInt id] s = (Fail e, s') ->
  fst (run d (PUT_users_id c) s) = (Failed (NewHTTPError 500 (Error e)), s').
Proof.
  intros Hid Hage Hv Hexec; unfold PUT_users_id.
  rewrite Hid, Hage, Hv, run_Exec, Hexec; reflexivity.
Qed.

(** X7. When the delete fails, DELETE /users/:id answers 500 with the
    message of the database's error. *)
Theorem DELETE_users_id_store_failure (c : Context) (d : Driver) (s s' : conn d)
    (id : Z) (e : error) :
  strconv.Atoi (Param c "id") = (id, None) ->
  driver_exec d "DELETE FROM users WHERE id = ?" [ArgInt id] s = (Fail e, s') ->
  fst (run d (DELETE_users_id c) s) = (Failed (NewHTTPError 500 (Error e)), s').
Proof.
  intros Hid Hexec; unfold DELETE_users_id.
  rewrite Hid, run_Exec, Hexec; reflexivity.
Qed.

(** X8. When the query fails, GET /users answers 500 with the message of
    the database's error. *)
Theorem GET_users_store_failure (c : Context) (d : Driver) (s s' : conn d)
    (e : error) :
  driver_query d "SELECT id, name, age FROM users" [] s = (Fail e, s') ->
  fst (run d (GET_users c) s) = (Failed (NewHTTPError 500 (Error e)), s').
Proof.
  intros Hquery; unfold GET_users; rewrite run_Query, Hquery; reflexivity.
Qed.

(** X9. When a row of GET /users fails to scan, the handler answers 500
    with the message of that error and no list, however many rows scanned
    before it. *)
Theorem GET_users_scan_failure (c : Context) (d : Driver) (s s' : conn d)
    (rows : Rows) (users : list User) (e : error) (rest : list (result scanned)) :
  driver_query d "SELECT id, name, age FROM users" [] s = (Ok rows, s') ->
  pending rows = (map as_row users ++ Fail e :: rest)%list ->
  fst (fst (run d (GET_users c) s)) = Failed (NewHTTPError 500 (Error e)).
Proof.
  intros Hquery Hrows; unfold GET_users.
  rewrite run_Query, Hquery, Hrows, scan_users_failure; reflexivity.
Qed.

(** X10. GET /users never asks the rows for their error: a result set
    that breaks off after some rows, or fails to close, is answered with
    200 and the rows read so far. *)
Theorem GET_users_hides_iteration_error (c : Context) (d : Driver) (s s' : conn d)
    (users : list User) (ierr cerr : option error) :
  driver_query d "SELECT id, name, age FROM users" [] s
  = (Ok (mkRows (map as_row users) ierr cerr), s') ->
  fst (fst (run d (GET_users c) s))
  = Sent (mkResponse 200 (JSONBody (JArray (map User_json users)))).
Proof.
  intros Hquery; unfold GET_users.
  rewrite run_Query, Hquery; cbn [pending].
  rewrite scan_users_all; reflexivity.
Qed.

(** X11. GET /users/:id answers 500 with the message of the error when
    the row carries a deferred error, when its first row fails to scan,
    when the rows break off before the first row, and when the row scans
    but the rows fail to close. *)
Theorem GET_users_id_store_failure (c : Context) (d : Driver) (s s' : conn d)
    (id : Z) (row : Row) (e : error) :
  strconv.Atoi (Param c "id") = (id, None) ->
  driver_query_row d "SELECT id, name, age FROM users WHERE id = ?" [ArgInt id] s
  = (row, s') ->
  row_err row = Some e
  \/ (row_err row = None /\ exists rest, pending (row_rows row) = Fail e :: rest)
  \/ (row_err row = None /\ pending (row_rows row) = []
      /\ iter_err (row_rows row) = Some e)
  \/ (row_err row = None /\ close_err (row_rows row) = Some e
      /\ exists v rest, pending (row_rows row) = Ok v :: rest) ->
  fst (fst (run d (GET_users_id c) s)) = Failed (NewHTTPError 500 (Error e)).
Proof.
  intros Hid Hquery Hcase; unfold GET_users_id.
  rewrite Hid, run_QueryRow, Hquery; unfold Row_Scan.
  destruct Hcase as [Hd | [[Hd [rest Hp]] | [[Hd [Hp Hi]] | [Hd [Hc [v [rest Hp]]]]]]];
    rewrite Hd, ?Hp, ?Hi, ?Hc; reflexivity.
Qed.

(** X12. A POST /users whose form has neither name nor age inserts the
    empty name with age 0, and on success answers 200 with them. *)
Theorem POST_users_missing_fields (c : Context) (d : Driver) (s : conn d) :
  ~ In "name" (map fst (form_values c)) ->
  ~ In "age" (map fst (form_values c)) ->
  snd (run d (POST_users c) s)
  = [mkStatement "INSERT INTO users(name, age) VALUES(?, ?)"
       [ArgString EmptyString; ArgInt 0]]
  /\ (forall result s',
      driver_exec d "INSERT INTO users(name, age) VALUES(?, ?)"
        [ArgString EmptyString; ArgInt 0] s = (Ok result, s') ->
      minInt <= fst (LastInsertId result) <= maxInt ->
      fst (fst (run d (POST_users c) s))
      = Sent (mkResponse 200
                (JSONBody (User_json (mkUser (fst (LastInsertId result)) EmptyString 0))))).
Proof.
  intros Hname Hage.
  rewrite sent_POST_users; unfold POST_users, FormValue.
  rewrite (first_value_missing _ _ Hname), (first_value_missing _ _ Hage).
  change (strconv.Atoi EmptyString)
    with (0, Some (StrconvError (mkNumError "Atoi" EmptyString ErrSyntax))).
  cbn [fst snd]; split; [reflexivity|].
  intros result s' Hexec Hid; rewrite run_Exec, Hexec.
  destruct (LastInsertId result) as [id ierr]; cbn [fst snd] in *.
  rewrite (wrap_int_small id Hid); reflexivity.
Qed.

(** X14. On a PUT /users/:id whose id parses, a form without age gives
    500 with the syntax error of [Atoi] on the empty string, whatever the
    name; a form without name whose age parses gives 400 with the message
    of the empty name, whatever the age. Nothing is sent in either case. *)
Theorem PUT_users_id_missing_fields (c : Context) (id : Z) :
  strconv.Atoi (Param c "id") = (id, None) ->
  (~ In "age" (map fst (form_values c)) ->
   PUT_users_id c
   = Return (Failed (NewHTTPError 500
                       ("strconv.Atoi: parsing " ++ Quote EmptyString
                        ++ ": invalid syntax"))))
  /\ (~ In "name" (map fst (form_values c)) ->
      snd (strconv.Atoi (FormValue c "age")) = None ->
      PUT_users_id c = Return (Failed (NewHTTPError 400 "name is empty"))).
Proof.
  intros Hid; unfold PUT_users_id; rewrite Hid; split.
  - intros Hage; unfold FormValue; rewrite (first_value_missing _ _ Hage).
    change (strconv.Atoi EmptyString)
      with (0, Some (StrconvError (mkNumError "Atoi" EmptyString ErrSyntax))).
    reflexivity.
  - intros Hname Hage; unfold FormValue in *; rewrite (first_value_missing _ _ Hname).
    destruct (strconv.Atoi (first_value "age" (form_values c))) as [age err].
    cbn [snd] in Hage; subst err; reflexivity.
Qed.

End MoreService.

(** X15. [validateUser] looks at the name only through its length: names
    of the same number of bytes get the same verdict at every age. *)
Theorem validateUser_reads_only_the_length (name1 name2 : string) (age : Z) :
  len name1 = len name2 -> validateUser name1 age = validateUser name2 age.
Proof.
  intros Hlen; unfold validateUser; rewrite <- Hlen.
  pose proof (len_empty name1) as H1; pose proof (len_empty name2) as H2.
  destruct (String.eqb_spec name1 EmptyString) as [He1 | Hn1];
    destruct (String.eqb_spec name2 EmptyString) as [He2 | Hn2];
    try reflexivity.
  - apply H1 in He1; contradiction Hn2; apply H2; lia.
  - apply H2 in He2; contradiction Hn1; apply H1; lia.
Qed.

(** ** The further properties on concrete requests *)

(** The update of Bob carries a valid name and age. *)
Lemma PUT_users_id_writes_only_valid_users_witness :
  exists name age id,
    mkStatement "UPDATE users SET name = ?, age = ? WHERE id = ?"
      [ArgString "Bob"; ArgInt 31; ArgInt 1]
    = mkStatement "UPDATE users SET name = ?, age = ? WHERE id = ?"
        [ArgString name; ArgInt age; ArgInt id]
    /\ 1 <= len name <= 100
    /\ 0 <= age < 200.
Proof.
  apply (PUT_users_id_writes_only_valid_users (text := plainText)
           put_bob tableDriver alice_table).
  left; reflexivity.
Defined.

(** A create against the locked database. *)
Lemma POST_users_store_failure_witness :
  fst (run lockedDriver (POST_users (text := plainText) put_bob) tt)
  = (Failed (NewHTTPError 500 "database is locked"), tt).
Proof.
  apply (POST_users_store_failure (text := plainText) put_bob lockedDriver tt tt locked).
  reflexivity.
Defined.

(** An update against the locked database. *)
Lemma PUT_users_id_store_failure_witness :
  fst (run lockedDriver (PUT_users_id (text := plainText) put_bob) tt)
  = (Failed (NewHTTPError 500 "database is locked"), tt).
Proof.
  apply (PUT_users_id_store_failure (text := plainText)
           put_bob lockedDriver tt tt 1 31 locked); reflexivity.
Defined.

(** A delete against the locked database. *)
Lemma DELETE_users_id_store_failure_witness :
  fst (run lockedDriver (DELETE_users_id (text := plainText) (at_id "1")) tt)
  = (Failed (NewHTTPError 500 "database is locked"), tt).
Proof.
  apply (DELETE_users_id_store_failure (text := plainText)
           (at_id "1") lockedDriver tt tt 1 locked); reflexivity.
Defined.

(** A listing against the locked database. *)
Lemma GET_users_store_failure_witness :
  fst (run lockedDriver (GET_users (text := plainText) empty_request) tt)
  = (Failed (NewHTTPError 500 "database is locked"), tt).
Proof.
  apply (GET_users_store_failure (text := plainText)
           empty_request lockedDriver tt tt locked); reflexivity.
Defined.

(** A listing whose second row fails to scan. *)
Lemma GET_users_scan_failure_witness :
  let rows :=
    mkRows [as_row (mkUser 1 "Alice" 30); Fail locked; as_row (mkUser 3 "Carol" 41)]
      None None in
  fst (fst (run (fixedDriver (Fail locked) (Ok rows) (mkRow None no_rows))
              (GET_users (text := plainText) empty_request) tt))
  = Failed (NewHTTPError 500 "database is locked").
Proof.
  cbv zeta.
  apply (GET_users_scan_failure (text := plainText) empty_request
           (fixedDriver (Fail locked)
              (Ok (mkRows [as_row (mkUser 1 "Alice" 30); Fail locked;
                           as_row (mkUser 3 "Carol" 41)] None None))
              (mkRow None no_rows))
           tt tt
           (mkRows [as_row (mkUser 1 "Alice" 30); Fail locked;
                    as_row (mkUser 3 "Carol" 41)] None None)
           [mkUser 1 "Alice" 30] locked [as_row (mkUser 3 "Carol" 41)]);
    reflexivity.
Defined.

(** A listing that breaks off after its first row. *)
Lemma GET_users_hides_iteration_error_witness :
  fst (fst (run (fixedDriver (Fail locked)
                   (Ok (mkRows (map as_row [mkUser 1 "Alice" 30]) (Some locked) None))
                   (mkRow None no_rows))
              (GET_users (text := plainText) empty_request) tt))
  = Sent (mkResponse 200 (JSONBody (JArray [User_json (mkUser 1 "Alice" 30)]))).
Proof.
  apply (GET_users_hides_iteration_error (text := plainText) empty_request
           (fixedDriver (Fail locked)
              (Ok (mkRows (map as_row [mkUser 1 "Alice" 30]) (Some locked) None))
              (mkRow None no_rows))
           tt tt [mkUser 1 "Alice" 30] (Some locked) None).
  reflexivity.
Defined.

(** A read against the locked database, and one whose rows break off. *)
Lemma GET_users_id_store_failure_witness :
  fst (fst (run lockedDriver (GET_users_id (text := plainText) (at_id "1")) tt))
  = Failed (NewHTTPError 500 "database is locked")
  /\ fst (fst (run (fixedDriver (Fail locked) (Fail locked)
                      (mkRow None (mkRows [] (Some locked) None)))
                 (GET_users_id (text := plainText) (at_id "1")) tt))
     = Failed (NewHTTPError 500 "database is locked").
Proof.
  split.
  - apply (GET_users_id_store_failure (text := plainText)
             (at_id "1") lockedDriver tt tt 1 (mkRow (Some locked) no_rows) locked
             eq_refl eq_refl).
    left; reflexivity.
  - apply (GET_users_id_store_failure (text := plainText) (at_id "1")
             (fixedDriver (Fail locked) (Fail locked)
                (mkRow None (mkRows [] (Some locked) None)))
             tt tt 1 (mkRow None (mkRows [] (Some locked) None)) locked
             eq_refl eq_refl).
    right; right; left; repeat split.
Defined.

(** A create with an empty form, on the empty table. *)
Lemma POST_users_missing_fields_witness :
  snd (run tableDriver (POST_users (text := plainText) empty_request) empty_table)
  = [mkStatement "INSERT INTO users(name, age) VALUES(?, ?)"
       [ArgString EmptyString; ArgInt 0]]
  /\ fst (fst (run tableDriver (POST_users (text := plainText) empty_request)
                 empty_table))
     = Sent (mkResponse 200 (JSONBody (User_json (mkUser 1 EmptyString 0)))).
Proof.
  destruct (POST_users_missing_fields (text := plainText)
              empty_request tableDriver empty_table
              (fun H : In "name" [] => H) (fun H : In "age" [] => H))
    as [Hsent Hresp].
  split; [exact Hsent|].
  apply (Hresp (mkResult (1, None) (1, None)) (mkTable [mkUser 1 EmptyString 0] 1));
    [reflexivity | vm_compute; split; discriminate].
Defined.

(** An update of id 1 with an empty form. *)
Lemma PUT_users_id_missing_fields_witness :
  PUT_users_id (text := plainText) (at_id "1")
  = Return (Failed (NewHTTPError 500
                      ("strconv.Atoi: parsing " ++ dquote ++ dquote
                       ++ ": invalid syntax")))
  /\ PUT_users_id (text := plainText) (mkContext [("id", "1")] [("age", "30")])
     = Return (Failed (NewHTTPError 400 "name is empty")).
Proof.
  split.
  - exact (proj1 (PUT_users_id_missing_fields (text := plainText) (at_id "1") 1 eq_refl)
             (fun H : In "age" [] => H)).
  - refine (proj2 (PUT_users_id_missing_fields (text := plainText)
                     (mkContext [("id", "1")] [("age", "30")]) 1 eq_refl)
              _ eq_refl).
    simpl; intros [H | []]; discriminate.
Defined.

(** A name of two spaces is judged as any other name of two bytes. *)
Lemma validateUser_reads_only_the_length_witness :
  validateUser "  " 30 = validateUser "Bo" 30.
Proof.
  apply validateUser_reads_only_the_length; reflexivity.
Defined.
